(** * NoTabsTitleControl: the title bar of an editor group without tabs

    A shallow embedding of
    [src/vs/workbench/browser/parts/editor/noTabsTitleControl.ts].

    The control is an object with mutable fields that calls into workbench
    services.  Its methods are embedded in a small monad that threads the
    control's fields and widgets, collects the calls made to the services
    (in order), and can end in a thrown JavaScript exception. *)

From Stdlib Require Import String List Bool ZArith Lia.
Import ListNotations.
Local Open Scope string_scope.

(** ** JavaScript values of string-typed expressions *)

Module Js.

(** What a getter declared [: string] can hand back at run time. *)
Inductive value : Type :=
| Undefined
| Null
| Str (s : string).

(** ToBoolean: [undefined], [null] and [''] are falsy. *)
Definition truthy (v : value) : bool :=
  match v with
  | Str s => negb (s =? "")
  | Undefined | Null => false
  end.

(** [a || b] *)
Definition or (a b : value) : value :=
  if truthy a then a else b.

(** [a === b] *)
Definition strict_eq (a b : value) : bool :=
  match a, b with
  | Undefined, Undefined => true
  | Null, Null => true
  | Str x, Str y => x =? y
  | _, _ => false
  end.

Definition is_string (v : value) : bool :=
  match v with Str _ => true | _ => false end.

(** Exceptions. *)
Inductive error : Type :=
| TypeError (message : string)
| Error (message : string).

(** [a || b] on object references ([null]/[undefined] is [None]). *)
Definition or_ref {A : Type} (a b : option A) : option A :=
  match a with Some _ => a | None => b end.

End Js.

(** ** The editor model consumed by the control *)

Inductive Verbosity : Type := SHORT | MEDIUM | LONG.

Definition URI : Type := string.

Record EditorInput : Type := {
  isDirty : bool;
  getName : Js.value;
  getDescription : Verbosity -> Js.value;
  getTitle : Verbosity -> Js.value
}.

Record IEditorGroup : Type := {
  activeEditor : option EditorInput;
  isPinned : option EditorInput -> bool
}.

Record IEditorIdentifier : Type := {
  group : IEditorGroup;
  editor : option EditorInput
}.

Record IEditorStacksModel : Type := {
  groups : list IEditorGroup;
  isActive : IEditorGroup -> bool
}.

Record ITabOptions : Type := {
  labelFormat : string
}.

Inductive ColorIdentifier : Type :=
| TAB_ACTIVE_FOREGROUND
| TAB_UNFOCUSED_ACTIVE_FOREGROUND.

(** ** DOM events *)

Definition HTMLElement : Type := nat.

Record MouseEvent : Type := {
  button : Z;
  target : option HTMLElement;
  srcElement : option HTMLElement
}.

(** A gesture event is a custom event: not an instance of [MouseEvent]. *)
Record GestureEvent : Type := {
  initialTarget : option HTMLElement;
  gestureTarget : option HTMLElement;
  gestureSrcElement : option HTMLElement
}.

(** [MouseEvent | GestureEvent] *)
Inductive ClickEvent : Type :=
| OfMouse (e : MouseEvent)
| OfGesture (e : GestureEvent).

Definition instanceofMouseEvent (e : ClickEvent) : bool :=
  match e with OfMouse _ => true | OfGesture _ => false end.

(** [e instanceof MouseEvent && e.button === 1] *)
Definition isMiddleMouseClick (e : ClickEvent) : bool :=
  match e with
  | OfMouse m => (button m =? 1)%Z
  | OfGesture _ => false
  end.

(** [(e as GestureEvent).initialTarget || e.target || e.srcElement];
    a mouse event has no [initialTarget] property. *)
Definition originalTarget (e : ClickEvent) : option HTMLElement :=
  match e with
  | OfMouse m => Js.or_ref (Js.or_ref None (target m)) (srcElement m)
  | OfGesture g =>
      Js.or_ref (Js.or_ref (initialTarget g) (gestureTarget g)) (gestureSrcElement g)
  end.

(** ** Promises and callbacks *)

(** The state of the promise [closeEditorAction.run] hands back. *)
Inductive TPromise : Type :=
| Pending
| Completed
| Errored (err : Js.error).

(** The functions the control passes as callbacks. *)
Inductive Callback : Type :=
| errors_onUnexpectedError
| quickOpenService_show.

(** ** Widgets *)

Record IResourceLabel : Type := {
  name : Js.value;
  description : Js.value;
  resource : option URI
}.

Record IResourceLabelOptions : Type := {
  title : Js.value;
  italic : bool;
  extraClasses : list string
}.

Inductive ResourceLabel : Type :=
| LabelCleared
| LabelSet (label : IResourceLabel) (options : IResourceLabelOptions).

Record ToolbarContext : Type := {
  toolbarGroup : option IEditorGroup
}.

(** ** Collaborators: services and helpers the control calls into *)

Record Collaborators : Type := {
  (* this.stacks *)
  stacks : IEditorStacksModel;
  (* this.editorGroupService.getTabOptions() *)
  getTabOptions : ITabOptions;
  (* this.getColor(id) *)
  getColor : ColorIdentifier -> string;
  (* toResource(editor, { supportSideBySide: true }) *)
  toResource : EditorInput -> option URI;
  (* this.editorActionsToolbar.getContainer().getHTMLElement() *)
  toolbarElement : HTMLElement;
  (* DOM.isAncestor(testChild, testAncestor) *)
  isAncestor : option HTMLElement -> HTMLElement -> bool;
  (* the promise this.closeEditorAction.run(context) returns *)
  closeEditorAction_run : IEditorIdentifier -> TPromise;
  (* the actions the toolbar shows for an editor of a group *)
  getEditorActions : IEditorIdentifier -> list string
}.

(** ** The control: its fields and the widgets it owns *)

Record TitleControl : Type := {
  context : option IEditorGroup;
  dragged : bool;
  (* class names of this.titleContainer *)
  titleContainer : list string;
  editorLabel : ResourceLabel;
  (* this.editorLabel.element.style.color *)
  editorLabelColor : string;
  (* this.editorActionsToolbar.context *)
  editorActionsToolbarContext : option ToolbarContext;
  (* the actions this.editorActionsToolbar shows *)
  editorActionsToolbar : list string;
  (* error callbacks registered with done() on promises still pending *)
  pendingPromises : list Callback;
  (* callbacks scheduled with setTimeout *)
  timers : list Callback
}.

Definition set_context (v : option IEditorGroup) (c : TitleControl) : TitleControl :=
  {| context := v; dragged := dragged c; titleContainer := titleContainer c;
     editorLabel := editorLabel c; editorLabelColor := editorLabelColor c;
     editorActionsToolbarContext := editorActionsToolbarContext c;
     editorActionsToolbar := editorActionsToolbar c;
     pendingPromises := pendingPromises c; timers := timers c |}.

Definition set_titleContainer (v : list string) (c : TitleControl) : TitleControl :=
  {| context := context c; dragged := dragged c; titleContainer := v;
     editorLabel := editorLabel c; editorLabelColor := editorLabelColor c;
     editorActionsToolbarContext := editorActionsToolbarContext c;
     editorActionsToolbar := editorActionsToolbar c;
     pendingPromises := pendingPromises c; timers := timers c |}.

Definition set_editorLabel (v : ResourceLabel) (c : TitleControl) : TitleControl :=
  {| context := context c; dragged := dragged c; titleContainer := titleContainer c;
     editorLabel := v; editorLabelColor := editorLabelColor c;
     editorActionsToolbarContext := editorActionsToolbarContext c;
     editorActionsToolbar := editorActionsToolbar c;
     pendingPromises := pendingPromises c; timers := timers c |}.

Definition set_editorLabelColor (v : string) (c : TitleControl) : TitleControl :=
  {| context := context c; dragged := dragged c; titleContainer := titleContainer c;
     editorLabel := editorLabel c; editorLabelColor := v;
     editorActionsToolbarContext := editorActionsToolbarContext c;
     editorActionsToolbar := editorActionsToolbar c;
     pendingPromises := pendingPromises c; timers := timers c |}.

Definition set_editorActionsToolbarContext (v : option ToolbarContext)
    (c : TitleControl) : TitleControl :=
  {| context := context c; dragged := dragged c; titleContainer := titleContainer c;
     editorLabel := editorLabel c; editorLabelColor := editorLabelColor c;
     editorActionsToolbarContext := v;
     editorActionsToolbar := editorActionsToolbar c;
     pendingPromises := pendingPromises c; timers := timers c |}.

Definition set_editorActionsToolbar (v : list string) (c : TitleControl) : TitleControl :=
  {| context := context c; dragged := dragged c; titleContainer := titleContainer c;
     editorLabel := editorLabel c; editorLabelColor := editorLabelColor c;
     editorActionsToolbarContext := editorActionsToolbarContext c;
     editorActionsToolbar := v;
     pendingPromises := pendingPromises c; timers := timers c |}.

Definition set_pendingPromises (v : list Callback) (c : TitleControl) : TitleControl :=
  {| context := context c; dragged := dragged c; titleContainer := titleContainer c;
     editorLabel := editorLabel c; editorLabelColor := editorLabelColor c;
     editorActionsToolbarContext := editorActionsToolbarContext c;
     editorActionsToolbar := editorActionsToolbar c;
     pendingPromises := v; timers := timers c |}.

Definition set_timers (v : list Callback) (c : TitleControl) : TitleControl :=
  {| context := context c; dragged := dragged c; titleContainer := titleContainer c;
     editorLabel := editorLabel c; editorLabelColor := editorLabelColor c;
     editorActionsToolbarContext := editorActionsToolbarContext c;
     editorActionsToolbar := editorActionsToolbar c;
     pendingPromises := pendingPromises c; timers := v |}.

(** ** Calls the control makes to the outside, in the order made *)

Inductive Effect : Type :=
(* DOM.EventHelper.stop(e, cancelBubble) *)
| EventHelper_stop (cancelBubble : bool)
(* this.editorGroupService.pinEditor(group, editor) *)
| PinEditor (g : IEditorGroup) (ed : option EditorInput)
(* this.editorGroupService.focusGroup(group) *)
| FocusGroup (g : IEditorGroup)
(* this.closeEditorAction.run({ group, editor }) *)
| CloseEditor (g : IEditorGroup) (ed : option EditorInput)
(* this.onContextMenu({ group, editor }, e, this.titleContainer) *)
| ContextMenu (g : IEditorGroup) (ed : option EditorInput)
(* errors.onUnexpectedError(err) *)
| UnexpectedError (err : Js.error)
(* this.quickOpenService.show() *)
| QuickOpenShow.

(** The requests to workbench services among the effects. *)
Definition isRequest (x : Effect) : bool :=
  match x with
  | EventHelper_stop _ => false
  | _ => true
  end.

Definition requests (out : list Effect) : list Effect := filter isRequest out.

Definition isCloseRequest (x : Effect) : bool :=
  match x with CloseEditor _ _ => true | _ => false end.

Definition isFocusRequest (x : Effect) : bool :=
  match x with FocusGroup _ => true | _ => false end.

(** ** The monad of a method body *)

Inductive Outcome (A : Type) : Type :=
| Return (a : A) (this : TitleControl) (out : list Effect)
| Throw (e : Js.error) (this : TitleControl) (out : list Effect).
Arguments Return {A} a this out.
Arguments Throw {A} e this out.

Definition M (A : Type) : Type := TitleControl -> Outcome A.

Definition ret {A : Type} (a : A) : M A := fun this => Return a this [].

Definition bind {A B : Type} (m : M A) (k : A -> M B) : M B :=
  fun this =>
    match m this with
    | Return a this1 out1 =>
        match k a this1 with
        | Return b this2 out2 => Return b this2 (out1 ++ out2)
        | Throw e this2 out2 => Throw e this2 (out1 ++ out2)
        end
    | Throw e this1 out1 => Throw e this1 out1
    end.

Declare Scope m_scope.
Delimit Scope m_scope with M.
Notation "x <- c ;; k" := (bind c (fun x => k))
  (at level 61, c at next level, right associativity) : m_scope.
Notation "c ;; k" := (bind c (fun _ => k))
  (at level 61, right associativity) : m_scope.
Local Open Scope m_scope.

Definition throw {A : Type} (e : Js.error) : M A := fun this => Throw e this [].
Definition emit (x : Effect) : M unit := fun this => Return tt this [x].
Definition get : M TitleControl := fun this => Return this this [].
Definition modify (f : TitleControl -> TitleControl) : M unit :=
  fun this => Return tt (f this) [].

(** Reading property [prop] of [o]: a [TypeError] when [o] is [null]. *)
Definition property_of {A : Type} (o : option A) (prop : string) : M A :=
  match o with
  | Some a => ret a
  | None => throw (Js.TypeError ("Cannot read property '" ++ prop ++ "' of null"))
  end.

(** What happened, whichever way the body ended. *)
Definition effects {A : Type} (r : Outcome A) : list Effect :=
  match r with
  | Return _ _ out => out
  | Throw _ _ out => out
  end.

Definition throws {A : Type} (r : Outcome A) : bool :=
  match r with
  | Return _ _ _ => false
  | Throw _ _ _ => true
  end.

Definition issues {A : Type} (r : Outcome A) (x : Effect) : Prop :=
  In x (effects r).

(** ** DOM and widget operations *)

Module DOM.

Definition hasClass (classes : list string) (className : string) : bool :=
  existsb (String.eqb className) classes.

Definition addClass (classes : list string) (className : string) : list string :=
  if hasClass classes className then classes else classes ++ [className].

Definition removeClass (classes : list string) (className : string) : list string :=
  filter (fun c => negb (c =? className)) classes.

End DOM.

Definition titleContainer_addClass (className : string) : M unit :=
  modify (fun this => set_titleContainer (DOM.addClass (titleContainer this) className) this).

Definition titleContainer_removeClass (className : string) : M unit :=
  modify (fun this => set_titleContainer (DOM.removeClass (titleContainer this) className) this).

Definition editorLabel_clear : M unit :=
  modify (set_editorLabel LabelCleared).

Definition editorLabel_setLabel (label : IResourceLabel)
    (options : IResourceLabelOptions) : M unit :=
  modify (set_editorLabel (LabelSet label options)).

(** Running a callback the control handed out. *)
Definition call (cb : Callback) (arg : Js.error) : M unit :=
  match cb with
  | errors_onUnexpectedError => emit (UnexpectedError arg)
  | quickOpenService_show => emit QuickOpenShow
  end.

(** [promise.done(null, onError)]: an error already there goes to [onError]
    at once, a pending promise keeps [onError] for later. *)
Definition done (promise : TPromise) (onError : Callback) : M unit :=
  match promise with
  | Completed => ret tt
  | Errored err => call onError err
  | Pending => modify (fun this => set_pendingPromises (pendingPromises this ++ [onError]) this)
  end.

(** [setTimeout(callback)] *)
Definition setTimeout (callback : Callback) : M unit :=
  modify (fun this => set_timers (timers this ++ [callback]) this).

(** Removing the element at position [n]. *)
Definition remove_nth {A : Type} (n : nat) (l : list A) : list A :=
  firstn n l ++ skipn (S n) l.

(** The event loop, later: the promise whose [done] registration is at
    position [n] completes ([None]) or fails ([Some err]). *)
Definition settle (n : nat) (result : option Js.error) : M unit :=
  this <- get ;;
  match nth_error (pendingPromises this) n with
  | None => ret tt
  | Some onError =>
      modify (set_pendingPromises (remove_nth n (pendingPromises this))) ;;
      match result with
      | None => ret tt
      | Some err => call onError err
      end
  end.

(** The event loop, later: the oldest timer fires. *)
Definition fireTimer : M unit :=
  this <- get ;;
  match timers this with
  | [] => ret tt
  | callback :: rest =>
      modify (set_timers rest) ;;
      call callback (Js.Error "")
  end.

(** ** The methods of NoTabsTitleControl *)

Section NoTabsTitleControl.

Variable env : Collaborators.

(** Modelled from the spec: the base class's [clearEditorActionsToolbar]
    (titleControl.ts is not among the sources): the toolbar's [clear()],
    after which it shows no action. *)
Definition clearEditorActionsToolbar : M unit :=
  modify (set_editorActionsToolbar []).

(** Modelled from the spec: the base class's [updateEditorActionsToolbar]
    (titleControl.ts is not among the sources): the toolbar is made to
    show the actions for the active document of the bound group. *)
Definition updateEditorActionsToolbar : M unit :=
  this <- get ;;
  match context this with
  | None => ret tt
  | Some g =>
      modify (set_editorActionsToolbar
                (getEditorActions env {| group := g; editor := activeEditor g |}))
  end.

(** Modelled from the spec: the base class's [onContextMenu]
    (titleControl.ts is not among the sources): opens the context menu
    anchored at the title container, bound to the identifier. *)
Definition onContextMenu (identifier : IEditorIdentifier) : M unit :=
  emit (ContextMenu (group identifier) (editor identifier)).

Definition setContext (g : option IEditorGroup) : M unit :=
  (* super.setContext(group) *)
  modify (set_context g) ;;
  modify (set_editorActionsToolbarContext (Some {| toolbarGroup := g |})).

Definition onTitleLabelClick (e : MouseEvent) : M unit :=
  emit (EventHelper_stop false) ;;
  this <- get ;;
  if negb (dragged this) then
    setTimeout quickOpenService_show
  else ret tt.

Definition onTitleDoubleClick (e : MouseEvent) : M unit :=
  emit (EventHelper_stop false) ;;
  this <- get ;;
  match context this with
  | None => ret tt
  | Some group =>
      emit (PinEditor group (activeEditor group))
  end.

Definition onTitleClick (e : ClickEvent) : M unit :=
  this <- get ;;
  match context this with
  | None => ret tt
  | Some group =>
      (* Close editor on middle mouse click *)
      if isMiddleMouseClick e then
        emit (CloseEditor group (activeEditor group)) ;;
        done (closeEditorAction_run env {| group := group; editor := activeEditor group |})
             errors_onUnexpectedError
      (* Focus editor group unless: click on toolbar, or mouse click with
         more than one group; touch: always focus *)
      else if ((length (groups (stacks env)) =? 1)%nat || negb (instanceofMouseEvent e))
              && negb (isAncestor env (originalTarget e) (toolbarElement env)) then
        emit (FocusGroup group)
      else ret tt
  end.

Definition getVerbosity (style : string) : Verbosity :=
  if style =? "short" then SHORT
  else if style =? "long" then LONG
  else MEDIUM.

Definition doRefresh : M unit :=
  this <- get ;;
  let group := context this in
  (* group && group.activeEditor *)
  let editor := match group with Some g => activeEditor g | None => None end in
  match group, editor with
  | Some group, Some editor =>
      let isPinned := isPinned group (activeEditor group) in
      let isActive := isActive (stacks env) group in
      (* Activity state *)
      (if isActive then titleContainer_addClass "active"
       else titleContainer_removeClass "active") ;;
      (* Dirty state *)
      (if isDirty editor then titleContainer_addClass "dirty"
       else titleContainer_removeClass "dirty") ;;
      (* Editor Label *)
      let resource := toResource env editor in
      let name := Js.or (getName editor) (Js.Str "") in
      let labelFormat := labelFormat (getTabOptions env) in
      let description :=
        if (labelFormat =? "default") && negb isActive then Js.Str ""
        else Js.or (getDescription editor (getVerbosity labelFormat)) (Js.Str "") in
      let title := getTitle editor LONG in
      let title := if Js.strict_eq description title then Js.Str "" else title in
      editorLabel_setLabel
        {| name := name; description := description; resource := resource |}
        {| title := title; italic := negb isPinned; extraClasses := ["title-label"] |} ;;
      (if isActive then modify (set_editorLabelColor (getColor env TAB_ACTIVE_FOREGROUND))
       else modify (set_editorLabelColor (getColor env TAB_UNFOCUSED_ACTIVE_FOREGROUND))) ;;
      (* Update Editor Actions Toolbar *)
      updateEditorActionsToolbar
  | _, _ =>
      editorLabel_clear ;;
      clearEditorActionsToolbar
      (* return early if we are being closed *)
  end.

(** *** The listeners [create] registers *)

Inductive TitleEvent : Type :=
| DBLCLICK (e : MouseEvent)
| CLICK (e : MouseEvent)
| Tap (e : GestureEvent)
| LabelClick (e : MouseEvent)
| CONTEXT_MENU
| TouchContextmenu.

(** The body of both context-menu listeners:
    [this.onContextMenu({ group: this.context, editor: this.context.activeEditor }, e, this.titleContainer)] *)
Definition contextMenuListener : M unit :=
  this <- get ;;
  ctx <- property_of (context this) "activeEditor" ;;
  onContextMenu {| group := ctx; editor := activeEditor ctx |}.

Definition dispatch (ev : TitleEvent) : M unit :=
  match ev with
  | DBLCLICK e => onTitleDoubleClick e
  | CLICK e => onTitleClick (OfMouse e)
  | Tap e => onTitleClick (OfGesture e)
  | LabelClick e => onTitleLabelClick e
  | CONTEXT_MENU => contextMenuListener
  | TouchContextmenu => contextMenuListener
  end.

End NoTabsTitleControl.

(** ** The description, in the specification's words *)

(** The specification's rule for the description: empty when the format is
    "default" and the group is not active, otherwise what the document's
    [getDescription] returns at the verbosity of the format. *)
Definition description_rule (env : Collaborators) (g : IEditorGroup)
    (ed : EditorInput) : Js.value :=
  let format := labelFormat (getTabOptions env) in
  if (format =? "default") && negb (isActive (stacks env) g) then Js.Str ""
  else getDescription ed (getVerbosity format).

(** The specification read literally: after a refresh with an active editor the
    label's description is what the rule gives. *)
Definition description_as_specified (env : Collaborators) (this : TitleControl) : Prop :=
  forall g ed this' lbl opts,
    context this = Some g ->
    activeEditor g = Some ed ->
    doRefresh env this = Return tt this' [] ->
    editorLabel this' = LabelSet lbl opts ->
    description lbl = description_rule env g ed.

(** The rule as the code has it: [null], [undefined] and [''] all become ['']. *)
Definition orEmpty (v : Js.value) : Js.value :=
  match v with
  | Js.Str s => Js.Str s
  | Js.Undefined | Js.Null => Js.Str ""
  end.

(** [DOM.toggleClass]: the class is there exactly when [shouldHaveIt]. *)
Definition toggleClass (classes : list string) (className : string)
    (shouldHaveIt : bool) : list string :=
  if shouldHaveIt then DOM.addClass classes className
  else DOM.removeClass classes className.

(** ** The presentation a refresh arrives at *)

(** The label content for the active editor [ed] of group [g]. *)
Definition labelContent (env : Collaborators) (g : IEditorGroup)
    (ed : EditorInput) : IResourceLabel :=
  {| name := orEmpty (getName ed);
     description := orEmpty (description_rule env g ed);
     resource := toResource env ed |}.

(** The label options: the tooltip is the LONG title unless it repeats
    the description. *)
Definition labelOptions (env : Collaborators) (g : IEditorGroup)
    (ed : EditorInput) : IResourceLabelOptions :=
  {| title := if Js.strict_eq (description (labelContent env g ed)) (getTitle ed LONG)
              then Js.Str "" else getTitle ed LONG;
     italic := negb (isPinned g (Some ed));
     extraClasses := ["title-label"] |}.

(** The control once refreshed for the active editor [ed] of group [g]. *)
Definition refreshed (env : Collaborators) (g : IEditorGroup) (ed : EditorInput)
    (this : TitleControl) : TitleControl :=
  {| context := context this;
     dragged := dragged this;
     titleContainer :=
       toggleClass (toggleClass (titleContainer this) "active" (isActive (stacks env) g))
                   "dirty" (isDirty ed);
     editorLabel := LabelSet (labelContent env g ed) (labelOptions env g ed);
     editorLabelColor :=
       getColor env (if isActive (stacks env) g then TAB_ACTIVE_FOREGROUND
                     else TAB_UNFOCUSED_ACTIVE_FOREGROUND);
     editorActionsToolbarContext := editorActionsToolbarContext this;
     editorActionsToolbar := getEditorActions env {| group := g; editor := Some ed |};
     pendingPromises := pendingPromises this;
     timers := timers this |}.

(** The control once cleared: no label, no toolbar action, the rest as it was. *)
Definition cleared (this : TitleControl) : TitleControl :=
  set_editorActionsToolbar [] (set_editorLabel LabelCleared this).

(** ** Fixtures: a small workbench to run the control in *)

Module Fixture.

(** A title container (0) holding the label (1) and the actions
    container (2); the toolbar (3) sits in the actions container and has
    one button (4). *)
Definition parentNode (n : HTMLElement) : option HTMLElement :=
  match n with
  | 1 => Some 0
  | 2 => Some 0
  | 3 => Some 2
  | 4 => Some 3
  | _ => None
  end.

Fixpoint isAncestorFrom (fuel : nat) (testChild : option HTMLElement)
    (testAncestor : HTMLElement) : bool :=
  match fuel, testChild with
  | S fuel', Some c =>
      if (c =? testAncestor)%nat then true
      else isAncestorFrom fuel' (parentNode c) testAncestor
  | _, _ => false
  end.

Definition file : EditorInput :=
  {| isDirty := true;
     getName := Js.Str "main.ts";
     getDescription := fun v =>
       match v with
       | SHORT => Js.Str "src"
       | MEDIUM => Js.Str "app/src"
       | LONG => Js.Str "/work/app/src"
       end;
     getTitle := fun _ => Js.Str "/work/app/src/main.ts" |}.

(** An untitled document: no description, and no name yet. *)
Definition untitled : EditorInput :=
  {| isDirty := false;
     getName := Js.Undefined;
     getDescription := fun _ => Js.Null;
     getTitle := fun _ => Js.Str "Untitled-1" |}.

Definition one : IEditorGroup :=
  {| activeEditor := Some file; isPinned := fun _ => true |}.

Definition two : IEditorGroup :=
  {| activeEditor := Some untitled; isPinned := fun _ => false |}.

Definition empty : IEditorGroup :=
  {| activeEditor := None; isPinned := fun _ => false |}.

Definition theme (c : ColorIdentifier) : string :=
  match c with
  | TAB_ACTIVE_FOREGROUND => "#ffffff"
  | TAB_UNFOCUSED_ACTIVE_FOREGROUND => "#808080"
  end.

Definition workbench (gs : list IEditorGroup) (focused : bool)
    (format : string) (closing : TPromise) : Collaborators :=
  {| stacks := {| groups := gs; isActive := fun _ => focused |};
     getTabOptions := {| labelFormat := format |};
     getColor := theme;
     toResource := fun ed =>
       match getName ed with Js.Str s => Some ("file:///" ++ s) | _ => None end;
     toolbarElement := 3;
     isAncestor := isAncestorFrom 8;
     closeEditorAction_run := fun _ => closing;
     getEditorActions := fun id =>
       match editor id with Some _ => ["close"] | None => [] end |}.

Definition control (ctx : option IEditorGroup) : TitleControl :=
  {| context := ctx; dragged := false; titleContainer := ["title"];
     editorLabel := LabelCleared; editorLabelColor := "";
     editorActionsToolbarContext := None;
     editorActionsToolbar := [];
     pendingPromises := []; timers := [] |}.

Definition click (b : Z) (t : HTMLElement) : MouseEvent :=
  {| button := b; target := Some t; srcElement := Some t |}.

Definition tap (t : HTMLElement) : GestureEvent :=
  {| initialTarget := Some t; gestureTarget := Some 0; gestureSrcElement := None |}.

End Fixture.

(** ** Runs of the control on the event loop *)

(** The control as a method body leaves it, returned or thrown. *)
Definition final {A : Type} (r : Outcome A) : TitleControl :=
  match r with
  | Return _ this _ => this
  | Throw _ this _ => this
  end.

Definition isContextMenuEvent (ev : TitleEvent) : bool :=
  match ev with
  | CONTEXT_MENU | TouchContextmenu => true
  | _ => false
  end.

Definition isLabelClick (ev : TitleEvent) : bool :=
  match ev with
  | LabelClick _ => true
  | _ => false
  end.

(** One turn of the event loop as far as the control is concerned. *)
Inductive Step : Type :=
(* a listener registered by create() runs *)
| Input (ev : TitleEvent)
(* refresh() *)
| Refresh
(* setContext(group) *)
| Rebind (g : option IEditorGroup)
(* a promise completes or fails *)
| Settle (n : nat) (result : option Js.error)
(* a timer fires *)
| Timer.

Definition step (env : Collaborators) (s : Step) : M unit :=
  match s with
  | Input ev => dispatch env ev
  | Refresh => doRefresh env
  | Rebind g => setContext g
  | Settle n result => settle n result
  | Timer => fireTimer
  end.

(** A run: each turn in the workbench as it is at that time.  An
    exception ends its turn only; the control stays as the turn left it. *)
Fixpoint run (turns : list (Collaborators * Step)) (this : TitleControl)
    : TitleControl * list Effect :=
  match turns with
  | [] => (this, [])
  | (env, s) :: rest =>
      let r := step env s this in
      let (this', out) := run rest (final r) in
      (this', (effects r ++ out)%list)
  end.

(** The group of the last [Rebind] of a run, [ctx] when there is none. *)
Fixpoint lastRebind (turns : list (Collaborators * Step))
    (ctx : option IEditorGroup) : option IEditorGroup :=
  match turns with
  | [] => ctx
  | (_, Rebind g) :: rest => lastRebind rest g
  | _ :: rest => lastRebind rest ctx
  end.

Definition isRefresh (s : Step) : bool :=
  match s with Refresh => true | _ => false end.

Definition isLabelClickStep (s : Step) : bool :=
  match s with Input ev => isLabelClick ev | _ => false end.

Definition isBinding (s : Step) : bool :=
  match s with Rebind (Some _) => true | _ => false end.

(** A request that names an editor group. *)
Definition isGroupRequest (x : Effect) : bool :=
  match x with
  | PinEditor _ _ | FocusGroup _ | CloseEditor _ _ | ContextMenu _ _ => true
  | _ => false
  end.

(** The toolbar's binding context names the control's group. *)
Definition inSync (this : TitleControl) : Prop :=
  editorActionsToolbarContext this = Some {| toolbarGroup := context this |}.

(** What a refresh paints. *)
Definition presentation (this : TitleControl)
    : list string * ResourceLabel * string * list string :=
  (titleContainer this, editorLabel this, editorLabelColor this,
   editorActionsToolbar this).

(** ** More fixtures *)

Module Scenario.

(** A document that has no title at all. *)
Definition scratch : EditorInput :=
  {| isDirty := true;
     getName := Js.Str "scratch";
     getDescription := fun _ => Js.Str "";
     getTitle := fun _ => Js.Null |}.

(** A document whose LONG title is its LONG description. *)
Definition folder : EditorInput :=
  {| isDirty := false;
     getName := Js.Str "app";
     getDescription := fun _ => Js.Str "/work/app";
     getTitle := fun _ => Js.Str "/work/app" |}.

Definition three : IEditorGroup :=
  {| activeEditor := Some scratch; isPinned := fun _ => false |}.

Definition four : IEditorGroup :=
  {| activeEditor := Some folder; isPinned := fun _ => true |}.

(** A control in the middle of its life: painted, bound and in sync. *)
Definition painted (g : IEditorGroup) : TitleControl :=
  {| context := Some g; dragged := false;
     titleContainer := ["title"; "dirty"; "active"];
     editorLabel := LabelCleared; editorLabelColor := "#ffffff";
     editorActionsToolbarContext := Some {| toolbarGroup := Some g |};
     editorActionsToolbar := ["close"];
     pendingPromises := []; timers := [] |}.

(** The same control while a drag is under way. *)
Definition dragging (g : IEditorGroup) : TitleControl :=
  {| context := Some g; dragged := true;
     titleContainer := ["title"; "dirty"; "active"];
     editorLabel := LabelCleared; editorLabelColor := "#ffffff";
     editorActionsToolbarContext := Some {| toolbarGroup := Some g |};
     editorActionsToolbar := ["close"];
     pendingPromises := []; timers := [] |}.

End Scenario.

(** * Properties *)

(** ** JavaScript operators *)

Lemma strict_eq_spec (a b : Js.value) : Js.strict_eq a b = true <-> a = b.
Proof.
  destruct a as [ | | x], b as [ | | y]; simpl; split; intros H;
    try reflexivity; try discriminate.
  - apply String.eqb_eq in H. now subst.
  - injection H as ->. apply String.eqb_refl.
Qed.

Lemma or_empty (v : Js.value) : Js.or v (Js.Str "") = orEmpty v.
Proof.
  destruct v as [ | | s]; try reflexivity.
  unfold Js.or; simpl.
  destruct (String.eqb_spec s ""); [now subst | reflexivity].
Qed.

Lemma orEmpty_is_string (v : Js.value) : Js.is_string (orEmpty v) = true.
Proof. now destruct v. Qed.

(** ** Running method bodies *)

Ltac run :=
  cbv [onTitleClick onTitleDoubleClick onTitleLabelClick contextMenuListener
       onContextMenu dispatch setContext property_of done call setTimeout
       bind ret get emit modify throw effects throws issues].

(** ** Verbosity of a label format *)

(** C6. [getVerbosity] maps "short" to SHORT, "long" to LONG and every
    other string to MEDIUM; it is a total function on strings, so no label
    format is rejected. *)
Theorem getVerbosity_cases (style : string) :
  (style = "short" -> getVerbosity style = SHORT) /\
  (style = "long" -> getVerbosity style = LONG) /\
  (style <> "short" -> style <> "long" -> getVerbosity style = MEDIUM).
Proof.
  unfold getVerbosity. repeat split.
  - intros ->. reflexivity.
  - intros ->. reflexivity.
  - intros Hs Hl.
    destruct (String.eqb_spec style "short"); [contradiction | ].
    destruct (String.eqb_spec style "long"); [contradiction | reflexivity].
Qed.

Lemma getVerbosity_cases_witness :
  getVerbosity "short" = SHORT /\ getVerbosity "long" = LONG /\
  getVerbosity "default" = MEDIUM /\ getVerbosity "no such format" = MEDIUM.
Proof.
  split; [ | split; [ | split]].
  - apply (proj1 (getVerbosity_cases "short")). reflexivity.
  - apply (proj1 (proj2 (getVerbosity_cases "long"))). reflexivity.
  - apply (proj2 (proj2 (getVerbosity_cases "default"))); discriminate.
  - apply (proj2 (proj2 (getVerbosity_cases "no such format"))); discriminate.
Defined.

(** ** Clicks *)

(** What a click that is not a middle mouse click does, in full. *)
Lemma onTitleClick_not_middle (env : Collaborators) (e : ClickEvent)
    (this : TitleControl) (g : IEditorGroup) :
  context this = Some g ->
  isMiddleMouseClick e = false ->
  onTitleClick env e this =
    Return tt this
      (if ((length (groups (stacks env)) =? 1)%nat || negb (instanceofMouseEvent e))
          && negb (isAncestor env (originalTarget e) (toolbarElement env))
       then [FocusGroup g] else []).
Proof.
  intros Hctx Hmid. run. rewrite Hctx, Hmid.
  destruct (_ && _); reflexivity.
Qed.

(** C1. A click (mouse or touch) that is not a middle mouse click, with a
    bound context: the group is asked to take focus if and only if (there
    is exactly one group or the event is not a mouse event) and the
    event's original target is not below the toolbar's element. *)
Theorem onTitleClick_focus_iff (env : Collaborators) (e : ClickEvent)
    (this : TitleControl) (g : IEditorGroup) :
  context this = Some g ->
  isMiddleMouseClick e = false ->
  issues (onTitleClick env e this) (FocusGroup g) <->
  (length (groups (stacks env)) = 1 \/ instanceofMouseEvent e = false) /\
  isAncestor env (originalTarget e) (toolbarElement env) = false.
Proof.
  intros Hctx Hmid.
  rewrite (onTitleClick_not_middle env e this g Hctx Hmid).
  unfold issues, effects.
  destruct (Nat.eqb_spec (length (groups (stacks env))) 1) as [Hone | Hmany];
    destruct (instanceofMouseEvent e);
    destruct (isAncestor env (originalTarget e) (toolbarElement env)); simpl;
    intuition (try discriminate; try lia).
Qed.

Lemma onTitleClick_focus_iff_witness :
  issues (onTitleClick (Fixture.workbench [Fixture.one; Fixture.two] true "default" Completed)
            (OfGesture (Fixture.tap 1)) (Fixture.control (Some Fixture.one)))
         (FocusGroup Fixture.one) <->
  (2 = 1 \/ false = false) /\ false = false.
Proof.
  apply (onTitleClick_focus_iff
           (Fixture.workbench [Fixture.one; Fixture.two] true "default" Completed)
           (OfGesture (Fixture.tap 1)) (Fixture.control (Some Fixture.one)) Fixture.one);
    reflexivity.
Defined.

(** ** Double click *)

(** C7. A double click with a bound context asks for exactly one pin, of
    the group's active editor in the group, and nothing else; without a
    context it asks for nothing.  It never throws. *)
Theorem onTitleDoubleClick_pin (e : MouseEvent) (this : TitleControl) :
  throws (onTitleDoubleClick e this) = false /\
  requests (effects (onTitleDoubleClick e this)) =
    match context this with
    | Some g => [PinEditor g (activeEditor g)]
    | None => []
    end.
Proof.
  run. destruct (context this) as [g | ]; split; reflexivity.
Qed.

(** ** Unset context *)

(** The handlers that test the context first end normally without it, and
    ask nothing of the workbench. *)
Lemma guarded_handlers_unset_context (env : Collaborators) (this : TitleControl)
    (m : MouseEvent) (t : GestureEvent) :
  context this = None ->
  onTitleClick env (OfMouse m) this = Return tt this [] /\
  onTitleClick env (OfGesture t) this = Return tt this [] /\
  onTitleDoubleClick m this = Return tt this [EventHelper_stop false].
Proof.
  intros Hctx. run. rewrite Hctx. repeat split.
Qed.

(** The context-menu listeners read [this.context.activeEditor] with no
    test of the context. *)
Lemma contextMenuListener_unset_context (this : TitleControl) :
  context this = None ->
  contextMenuListener this =
    Throw (Js.TypeError "Cannot read property 'activeEditor' of null") this [].
Proof.
  intros Hctx. run. rewrite Hctx. reflexivity.
Qed.

(** C2 (the code departs from it). With no context bound, the listener
    for the context-menu event throws a TypeError; so does the one for the
    touch context-menu gesture. *)
Theorem context_menu_unset_context_throws :
  let env := Fixture.workbench [Fixture.one] true "default" Completed in
  let this := Fixture.control None in
  dispatch env CONTEXT_MENU this =
    Throw (Js.TypeError "Cannot read property 'activeEditor' of null") this [] /\
  dispatch env TouchContextmenu this =
    Throw (Js.TypeError "Cannot read property 'activeEditor' of null") this [] /\
  throws (dispatch env CONTEXT_MENU this) = true.
Proof.
  cbv zeta. unfold dispatch.
  rewrite contextMenuListener_unset_context by reflexivity.
  repeat split.
Qed.

(** ** Class lists *)

Lemma hasClass_app (l1 l2 : list string) (c : string) :
  DOM.hasClass (l1 ++ l2) c = DOM.hasClass l1 c || DOM.hasClass l2 c.
Proof. unfold DOM.hasClass. apply existsb_app. Qed.

Lemma hasClass_removeClass (l : list string) (c d : string) :
  DOM.hasClass (DOM.removeClass l d) c = DOM.hasClass l c && negb (c =? d).
Proof.
  induction l as [ | x l IH]; [reflexivity | ].
  simpl. destruct (String.eqb_spec x d) as [-> | Hxd]; simpl.
  - rewrite IH. destruct (String.eqb_spec c d) as [-> | Hcd]; simpl.
    + now rewrite !andb_false_r.
    + now rewrite andb_true_r.
  - rewrite IH. destruct (String.eqb_spec c x) as [-> | Hcx]; simpl.
    + destruct (String.eqb_spec x d); [contradiction | reflexivity].
    + reflexivity.
Qed.

Lemma hasClass_toggleClass_same (l : list string) (c : string) (b : bool) :
  DOM.hasClass (toggleClass l c b) c = b.
Proof.
  destruct b; simpl.
  - unfold DOM.addClass. destruct (DOM.hasClass l c) eqn:E; [exact E | ].
    rewrite hasClass_app, E. simpl. now rewrite String.eqb_refl.
  - rewrite hasClass_removeClass, String.eqb_refl. apply andb_false_r.
Qed.

Lemma hasClass_toggleClass_other (l : list string) (c d : string) (b : bool) :
  c <> d -> DOM.hasClass (toggleClass l d b) c = DOM.hasClass l c.
Proof.
  intros Hcd. apply String.eqb_neq in Hcd. destruct b; simpl.
  - unfold DOM.addClass. destruct (DOM.hasClass l d); [reflexivity | ].
    rewrite hasClass_app. simpl. rewrite Hcd. now rewrite !orb_false_r.
  - rewrite hasClass_removeClass, Hcd. apply andb_true_r.
Qed.

Lemma removeClass_absent (l : list string) (c : string) :
  DOM.hasClass l c = false -> DOM.removeClass l c = l.
Proof.
  induction l as [ | x l IH]; [reflexivity | ].
  simpl. intros H. apply orb_false_elim in H as [Hx Hl].
  rewrite String.eqb_sym, Hx. simpl. now rewrite IH.
Qed.

(** A class list already in the wanted state is left as it is. *)
Lemma toggleClass_settled (l : list string) (c : string) (b : bool) :
  DOM.hasClass l c = b -> toggleClass l c b = l.
Proof.
  intros <-. unfold toggleClass, DOM.addClass.
  destruct (DOM.hasClass l c) eqn:E; [reflexivity | ].
  now apply removeClass_absent.
Qed.

(** Setting "active" and then "dirty" twice over changes nothing more. *)
Lemma title_classes_settled (l : list string) (a d : bool) :
  let l' := toggleClass (toggleClass l "active" a) "dirty" d in
  toggleClass (toggleClass l' "active" a) "dirty" d = l'.
Proof.
  intros l'.
  assert (Ha : toggleClass l' "active" a = l').
  { apply toggleClass_settled. unfold l'.
    rewrite hasClass_toggleClass_other by discriminate.
    apply hasClass_toggleClass_same. }
  rewrite Ha. apply toggleClass_settled. apply hasClass_toggleClass_same.
Qed.

(** ** Refresh *)

(** With an active editor, a refresh ends normally, asks nothing of the
    workbench and leaves the control [refreshed]. *)
Lemma doRefresh_active (env : Collaborators) (this : TitleControl)
    (g : IEditorGroup) (ed : EditorInput) :
  context this = Some g ->
  activeEditor g = Some ed ->
  doRefresh env this = Return tt (refreshed env g ed this) [].
Proof.
  intros Hctx Hed.
  destruct this as [ctx dr classes lbl color tctx actions promises tms].
  simpl in Hctx. subst ctx.
  unfold doRefresh, updateEditorActionsToolbar, editorLabel_setLabel,
    titleContainer_addClass, titleContainer_removeClass, bind, get, modify, ret.
  cbv [context]. rewrite Hed, !or_empty.
  cbv [refreshed labelContent labelOptions description_rule description].
  destruct (isActive (stacks env) g), (isDirty ed),
    (labelFormat (getTabOptions env) =? "default");
    simpl; rewrite ?Hed; reflexivity.
Qed.

(** Without an active editor, a refresh ends normally, asks nothing of the
    workbench and leaves the control [cleared]. *)
Lemma doRefresh_inactive (env : Collaborators) (this : TitleControl) :
  match context this with
  | Some g => activeEditor g = None
  | None => True
  end ->
  doRefresh env this = Return tt (cleared this) [].
Proof.
  unfold doRefresh, bind, get.
  destruct (context this) as [g | ]; [intros -> | intros _]; reflexivity.
Qed.

(** C3. When the context is unset, or the bound group has no active
    editor, a refresh clears the label and clears the toolbar, and that is
    all: the title's classes, the label color and every other field stay
    as they were, nothing is asked of the workbench and nothing is thrown. *)
Theorem doRefresh_nothing_to_show (env : Collaborators) (this : TitleControl) :
  (context this = None \/
   exists g, context this = Some g /\ activeEditor g = None) ->
  exists this',
    doRefresh env this = Return tt this' [] /\
    editorLabel this' = LabelCleared /\
    editorActionsToolbar this' = [] /\
    this' = set_editorActionsToolbar [] (set_editorLabel LabelCleared this) /\
    titleContainer this' = titleContainer this /\
    editorLabelColor this' = editorLabelColor this /\
    editorActionsToolbarContext this' = editorActionsToolbarContext this /\
    context this' = context this.
Proof.
  intros H. exists (cleared this). split.
  - apply doRefresh_inactive.
    destruct H as [-> | (g & -> & Hed)]; [exact I | exact Hed].
  - repeat split.
Qed.

Lemma doRefresh_nothing_to_show_witness :
  exists this',
    doRefresh (Fixture.workbench [Fixture.empty] true "default" Completed)
      (Fixture.control (Some Fixture.empty)) = Return tt this' [] /\
    editorLabel this' = LabelCleared /\
    editorActionsToolbar this' = [] /\
    this' = set_editorActionsToolbar []
              (set_editorLabel LabelCleared (Fixture.control (Some Fixture.empty))) /\
    titleContainer this' = ["title"] /\
    editorLabelColor this' = "" /\
    editorActionsToolbarContext this' = None /\
    context this' = Some Fixture.empty.
Proof.
  apply (doRefresh_nothing_to_show
           (Fixture.workbench [Fixture.empty] true "default" Completed)
           (Fixture.control (Some Fixture.empty))).
  right. exists Fixture.empty. split; reflexivity.
Defined.

(** The literal reading of the description rule fails for a document whose
    [getDescription] returns [null]: format "long", group focused, and the
    label gets [''] where the document gave [null]. *)
Lemma description_as_specified_fails :
  ~ description_as_specified
      (Fixture.workbench [Fixture.two] true "long" Completed)
      (Fixture.control (Some Fixture.two)).
Proof.
  intros H.
  specialize (H Fixture.two Fixture.untitled _ _ _ eq_refl eq_refl eq_refl eq_refl).
  discriminate H.
Qed.

(** C4 (amended). On a refresh with an active editor: with the format
    "default" and the group not the active one, the description handed to
    the label is the empty string, whatever the document's description;
    otherwise it is the document's [getDescription] at the verbosity of the
    format, with the empty string in place of [null] or [undefined]. *)
Theorem doRefresh_description (env : Collaborators) (this : TitleControl)
    (g : IEditorGroup) (ed : EditorInput) :
  context this = Some g ->
  activeEditor g = Some ed ->
  exists this' lbl opts,
    doRefresh env this = Return tt this' [] /\
    editorLabel this' = LabelSet lbl opts /\
    (labelFormat (getTabOptions env) = "default" ->
     isActive (stacks env) g = false ->
     description lbl = Js.Str "") /\
    (~ (labelFormat (getTabOptions env) = "default" /\ isActive (stacks env) g = false) ->
     description lbl =
       orEmpty (getDescription ed (getVerbosity (labelFormat (getTabOptions env))))).
Proof.
  intros Hctx Hed.
  exists (refreshed env g ed this), (labelContent env g ed), (labelOptions env g ed).
  split; [now apply doRefresh_active | ]. split; [reflexivity | ].
  unfold labelContent, description_rule; simpl. split.
  - intros -> ->. reflexivity.
  - intros Hnot.
    destruct (String.eqb_spec (labelFormat (getTabOptions env)) "default") as [Hd | Hd];
      destruct (isActive (stacks env) g); simpl; try reflexivity.
    exfalso. apply Hnot. now split.
Qed.

Lemma doRefresh_description_witness :
  exists this' lbl opts,
    doRefresh (Fixture.workbench [Fixture.one; Fixture.two] false "default" Completed)
      (Fixture.control (Some Fixture.one)) = Return tt this' [] /\
    editorLabel this' = LabelSet lbl opts /\
    ("default" = "default" -> false = false -> description lbl = Js.Str "") /\
    (~ ("default" = "default" /\ false = false) ->
     description lbl = orEmpty (Js.Str "app/src")).
Proof.
  apply (doRefresh_description
           (Fixture.workbench [Fixture.one; Fixture.two] false "default" Completed)
           (Fixture.control (Some Fixture.one)) Fixture.one Fixture.file);
    reflexivity.
Defined.

(** C5. On a refresh with an active editor the tooltip is the document's
    title at LONG verbosity; when that is the same string as the
    description handed to the label, the title handed to the label is the
    empty string, and otherwise it is the LONG title itself. *)
Theorem doRefresh_title (env : Collaborators) (this : TitleControl)
    (g : IEditorGroup) (ed : EditorInput) :
  context this = Some g ->
  activeEditor g = Some ed ->
  exists this' lbl opts,
    doRefresh env this = Return tt this' [] /\
    editorLabel this' = LabelSet lbl opts /\
    (getTitle ed LONG = description lbl -> title opts = Js.Str "") /\
    (getTitle ed LONG <> description lbl -> title opts = getTitle ed LONG).
Proof.
  intros Hctx Hed.
  exists (refreshed env g ed this), (labelContent env g ed), (labelOptions env g ed).
  split; [now apply doRefresh_active | ]. split; [reflexivity | ].
  unfold labelOptions; simpl.
  destruct (Js.strict_eq _ (getTitle ed LONG)) eqn:E.
  - split; [reflexivity | ].
    apply strict_eq_spec in E. intros Hne. exfalso. apply Hne.
    symmetry. exact E.
  - split; [ | reflexivity].
    intros Heq. symmetry in Heq. apply strict_eq_spec in Heq.
    unfold labelContent in Heq; simpl in Heq. congruence.
Qed.

Lemma doRefresh_title_witness :
  exists this' lbl opts,
    doRefresh (Fixture.workbench [Fixture.one] true "long" Completed)
      (Fixture.control (Some Fixture.one)) = Return tt this' [] /\
    editorLabel this' = LabelSet lbl opts /\
    (Js.Str "/work/app/src/main.ts" = description lbl -> title opts = Js.Str "") /\
    (Js.Str "/work/app/src/main.ts" <> description lbl ->
     title opts = Js.Str "/work/app/src/main.ts").
Proof.
  apply (doRefresh_title
           (Fixture.workbench [Fixture.one] true "long" Completed)
           (Fixture.control (Some Fixture.one)) Fixture.one Fixture.file);
    reflexivity.
Defined.

(** C10. On a refresh with an active editor the name and the description
    handed to the label are strings; where [getName()] or
    [getDescription(verbosity)] returns [null] or [undefined] the label
    gets the empty string, and a name that is a string is passed as it is. *)
Theorem doRefresh_label_strings (env : Collaborators) (this : TitleControl)
    (g : IEditorGroup) (ed : EditorInput) :
  context this = Some g ->
  activeEditor g = Some ed ->
  exists this' lbl opts,
    doRefresh env this = Return tt this' [] /\
    editorLabel this' = LabelSet lbl opts /\
    Js.is_string (name lbl) = true /\
    Js.is_string (description lbl) = true /\
    (Js.is_string (getName ed) = false -> name lbl = Js.Str "") /\
    (Js.is_string (getDescription ed (getVerbosity (labelFormat (getTabOptions env)))) = false ->
     description lbl = Js.Str "") /\
    (forall s, getName ed = Js.Str s -> name lbl = Js.Str s).
Proof.
  intros Hctx Hed.
  exists (refreshed env g ed this), (labelContent env g ed), (labelOptions env g ed).
  split; [now apply doRefresh_active | ]. split; [reflexivity | ].
  unfold labelContent, description_rule; simpl.
  split; [apply orEmpty_is_string | ].
  split; [apply orEmpty_is_string | ].
  split; [ | split].
  - destruct (getName ed); simpl; intros H; try reflexivity; discriminate.
  - intros H. destruct (_ && _); [reflexivity | ].
    destruct (getDescription ed _); simpl in *; try reflexivity; discriminate.
  - intros s ->. reflexivity.
Qed.

Lemma doRefresh_label_strings_witness :
  exists this' lbl opts,
    doRefresh (Fixture.workbench [Fixture.two] true "short" Completed)
      (Fixture.control (Some Fixture.two)) = Return tt this' [] /\
    editorLabel this' = LabelSet lbl opts /\
    Js.is_string (name lbl) = true /\
    Js.is_string (description lbl) = true /\
    (Js.is_string Js.Undefined = false -> name lbl = Js.Str "") /\
    (Js.is_string Js.Null = false -> description lbl = Js.Str "") /\
    (forall s, Js.Undefined = Js.Str s -> name lbl = Js.Str s).
Proof.
  apply (doRefresh_label_strings
           (Fixture.workbench [Fixture.two] true "short" Completed)
           (Fixture.control (Some Fixture.two)) Fixture.two Fixture.untitled);
    reflexivity.
Defined.

(** C9. Refresh is idempotent: with the context and the collaborators
    unchanged, two refreshes in a row end as one does, with the same label,
    tooltip, classes, color and toolbar (and the same everything else). *)
Theorem doRefresh_idempotent (env : Collaborators) (this : TitleControl) :
  (doRefresh env ;; doRefresh env) this = doRefresh env this.
Proof.
  unfold bind.
  destruct (context this) as [g | ] eqn:Hctx;
    [destruct (activeEditor g) as [ed | ] eqn:Hed | ].
  - rewrite (doRefresh_active env this g ed Hctx Hed).
    rewrite (doRefresh_active env (refreshed env g ed this) g ed Hctx Hed).
    simpl. f_equal. unfold refreshed; simpl. f_equal.
    apply title_classes_settled.
  - assert (H1 : doRefresh env this = Return tt (cleared this) []).
    { apply doRefresh_inactive. now rewrite Hctx. }
    assert (H2 : doRefresh env (cleared this) = Return tt (cleared this) []).
    { apply (doRefresh_inactive env (cleared this)). simpl. now rewrite Hctx. }
    rewrite H1, H2. reflexivity.
  - assert (H1 : doRefresh env this = Return tt (cleared this) []).
    { apply doRefresh_inactive. now rewrite Hctx. }
    assert (H2 : doRefresh env (cleared this) = Return tt (cleared this) []).
    { apply (doRefresh_inactive env (cleared this)). simpl. now rewrite Hctx. }
    rewrite H1, H2. reflexivity.
Qed.

(** ** Middle click *)

Lemma nth_error_last {A : Type} (l : list A) (x : A) :
  nth_error (l ++ [x]) (length l) = Some x.
Proof. induction l as [ | y l IH]; [reflexivity | exact IH]. Qed.

Lemma remove_nth_last {A : Type} (l : list A) (x : A) :
  remove_nth (length l) (l ++ [x]) = l.
Proof.
  unfold remove_nth. induction l as [ | y l IH]; [reflexivity | ].
  simpl in *. now rewrite IH.
Qed.

(** A promise registered with [errors.onUnexpectedError] and settled
    later: a failure goes to the reporter, nothing is thrown, and the
    registration is gone. *)
Lemma settle_registered (this : TitleControl) (result : option Js.error) :
  settle (length (pendingPromises this)) result
    (set_pendingPromises (pendingPromises this ++ [errors_onUnexpectedError]) this) =
  Return tt this
    match result with
    | Some err => [UnexpectedError err]
    | None => []
    end.
Proof.
  destruct this as [ctx dr classes lbl color tctx actions promises tms].
  unfold settle, bind, get, modify, call, emit, ret, set_pendingPromises; simpl.
  rewrite nth_error_last, remove_nth_last.
  destruct result; reflexivity.
Qed.

(** C8. A mouse click with the middle button and a bound context: the
    handler ends normally; it asks exactly once for the close of the
    group's active editor and never for focus.  A failure of the close
    goes to the unexpected-error reporter: at once when the promise has
    failed already, and when the promise is settled later otherwise;
    neither way is anything thrown. *)
Theorem onTitleClick_middle (env : Collaborators) (m : MouseEvent)
    (this : TitleControl) (g : IEditorGroup) :
  context this = Some g ->
  button m = 1%Z ->
  let r := onTitleClick env (OfMouse m) this in
  let promise := closeEditorAction_run env {| group := g; editor := activeEditor g |} in
  throws r = false /\
  filter isCloseRequest (effects r) = [CloseEditor g (activeEditor g)] /\
  filter isFocusRequest (effects r) = [] /\
  (forall err, promise = Errored err ->
     r = Return tt this [CloseEditor g (activeEditor g); UnexpectedError err]) /\
  (promise = Completed -> r = Return tt this [CloseEditor g (activeEditor g)]) /\
  (promise = Pending ->
     exists this',
       r = Return tt this' [CloseEditor g (activeEditor g)] /\
       settle (length (pendingPromises this)) None this' = Return tt this [] /\
       forall err,
         settle (length (pendingPromises this)) (Some err) this' =
           Return tt this [UnexpectedError err]).
Proof.
  intros Hctx Hmid r promise. subst r.
  unfold onTitleClick, bind, get, isMiddleMouseClick.
  rewrite Hctx, Hmid. simpl.
  fold promise. unfold done, call, emit, modify, ret.
  destruct promise as [ | | err0] eqn:Hp; simpl;
    (split; [reflexivity | split; [reflexivity | split; [reflexivity | ]]]);
    (split; [intros err Herr; try discriminate | split; intros Hx; try discriminate]);
    try reflexivity.
  - eexists. split; [reflexivity | ]. split.
    + apply (settle_registered this None).
    + intros err. apply (settle_registered this (Some err)).
  - injection Herr as ->. reflexivity.
Qed.

Lemma onTitleClick_middle_witness :
  let env := Fixture.workbench [Fixture.one; Fixture.two] true "default" Pending in
  let this := Fixture.control (Some Fixture.one) in
  let r := onTitleClick env (OfMouse (Fixture.click 1 1)) this in
  throws r = false /\
  filter isCloseRequest (effects r) = [CloseEditor Fixture.one (Some Fixture.file)] /\
  filter isFocusRequest (effects r) = [] /\
  (forall err, Pending = Errored err ->
     r = Return tt this [CloseEditor Fixture.one (Some Fixture.file); UnexpectedError err]) /\
  (Pending = Completed -> r = Return tt this [CloseEditor Fixture.one (Some Fixture.file)]) /\
  (Pending = Pending ->
     exists this',
       r = Return tt this' [CloseEditor Fixture.one (Some Fixture.file)] /\
       settle 0 None this' = Return tt this [] /\
       forall err, settle 0 (Some err) this' = Return tt this [UnexpectedError err]).
Proof.
  apply (onTitleClick_middle
           (Fixture.workbench [Fixture.one; Fixture.two] true "default" Pending)
           (Fixture.click 1 1) (Fixture.control (Some Fixture.one)) Fixture.one);
    reflexivity.
Defined.

(** * Further properties of the control *)

(** ** What a refresh paints, and what it leaves alone *)

(** The outcome of a refresh, in every state. *)
Lemma doRefresh_outcome (env : Collaborators) (this : TitleControl) :
  doRefresh env this =
    Return tt
      match context this with
      | Some g =>
          match activeEditor g with
          | Some ed => refreshed env g ed this
          | None => cleared this
          end
      | None => cleared this
      end [].
Proof.
  destruct (context this) as [g | ] eqn:Hctx.
  - destruct (activeEditor g) as [ed | ] eqn:Hed.
    + now apply doRefresh_active.
    + apply doRefresh_inactive. now rewrite Hctx.
  - apply doRefresh_inactive. now rewrite Hctx.
Qed.


(** X2. After a refresh with an active editor the title container has the
    class "active" exactly when the group is the active one and the class
    "dirty" exactly when the editor is dirty; every other class is there
    exactly when it was before. *)
Theorem doRefresh_classes (env : Collaborators) (this : TitleControl)
    (g : IEditorGroup) (ed : EditorInput) :
  context this = Some g ->
  activeEditor g = Some ed ->
  exists this',
    doRefresh env this = Return tt this' [] /\
    DOM.hasClass (titleContainer this') "active" = isActive (stacks env) g /\
    DOM.hasClass (titleContainer this') "dirty" = isDirty ed /\
    forall c, c <> "active" -> c <> "dirty" ->
      DOM.hasClass (titleContainer this') c = DOM.hasClass (titleContainer this) c.
Proof.
  intros Hctx Hed. exists (refreshed env g ed this).
  split; [now apply doRefresh_active | ].
  unfold refreshed; simpl. split; [ | split].
  - rewrite hasClass_toggleClass_other by discriminate.
    apply hasClass_toggleClass_same.
  - apply hasClass_toggleClass_same.
  - intros c Ha Hd. now rewrite !hasClass_toggleClass_other.
Qed.

Lemma doRefresh_classes_witness :
  exists this',
    doRefresh (Fixture.workbench [Fixture.one; Scenario.three] false "short" Completed)
      (Scenario.painted Scenario.four) = Return tt this' [] /\
    DOM.hasClass (titleContainer this') "active" = false /\
    DOM.hasClass (titleContainer this') "dirty" = false /\
    forall c, c <> "active" -> c <> "dirty" ->
      DOM.hasClass (titleContainer this') c =
      DOM.hasClass ["title"; "dirty"; "active"] c.
Proof.
  apply (doRefresh_classes
           (Fixture.workbench [Fixture.one; Scenario.three] false "short" Completed)
           (Scenario.painted Scenario.four) Scenario.four Scenario.folder);
    reflexivity.
Defined.

(** X3. After a refresh with an active editor the label is italic exactly
    when the editor is not pinned in its group, carries the one extra
    class "title-label" and the editor's resource, and is colored with the
    theme's active tab foreground when the group is active and with the
    unfocused one otherwise; the toolbar shows the actions of that editor. *)
Theorem doRefresh_style (env : Collaborators) (this : TitleControl)
    (g : IEditorGroup) (ed : EditorInput) :
  context this = Some g ->
  activeEditor g = Some ed ->
  exists this' lbl opts,
    doRefresh env this = Return tt this' [] /\
    editorLabel this' = LabelSet lbl opts /\
    italic opts = negb (isPinned g (Some ed)) /\
    extraClasses opts = ["title-label"] /\
    resource lbl = toResource env ed /\
    (isActive (stacks env) g = true ->
     editorLabelColor this' = getColor env TAB_ACTIVE_FOREGROUND) /\
    (isActive (stacks env) g = false ->
     editorLabelColor this' = getColor env TAB_UNFOCUSED_ACTIVE_FOREGROUND) /\
    editorActionsToolbar this' = getEditorActions env {| group := g; editor := Some ed |}.
Proof.
  intros Hctx Hed.
  exists (refreshed env g ed this), (labelContent env g ed), (labelOptions env g ed).
  split; [now apply doRefresh_active | ].
  unfold refreshed; simpl.
  repeat split; intros ->; reflexivity.
Qed.

Lemma doRefresh_style_witness :
  exists this' lbl opts,
    doRefresh (Fixture.workbench [Fixture.one; Scenario.three] false "short" Completed)
      (Scenario.painted Scenario.three) = Return tt this' [] /\
    editorLabel this' = LabelSet lbl opts /\
    italic opts = true /\
    extraClasses opts = ["title-label"] /\
    resource lbl = Some "file:///scratch" /\
    (false = true -> editorLabelColor this' = "#ffffff") /\
    (false = false -> editorLabelColor this' = "#808080") /\
    editorActionsToolbar this' = ["close"].
Proof.
  apply (doRefresh_style
           (Fixture.workbench [Fixture.one; Scenario.three] false "short" Completed)
           (Scenario.painted Scenario.three) Scenario.three Scenario.scratch);
    reflexivity.
Defined.

(** X4. The title has no default: when the document's [getTitle] at LONG
    verbosity returns [null] or [undefined], that very value is handed to
    the label as its title (unlike the name and the description). *)
Theorem doRefresh_title_not_defaulted (env : Collaborators) (this : TitleControl)
    (g : IEditorGroup) (ed : EditorInput) :
  context this = Some g ->
  activeEditor g = Some ed ->
  Js.is_string (getTitle ed LONG) = false ->
  exists this' lbl opts,
    doRefresh env this = Return tt this' [] /\
    editorLabel this' = LabelSet lbl opts /\
    title opts = getTitle ed LONG /\
    Js.is_string (title opts) = false.
Proof.
  intros Hctx Hed Hnull.
  exists (refreshed env g ed this), (labelContent env g ed), (labelOptions env g ed).
  split; [now apply doRefresh_active | ]. split; [reflexivity | ].
  assert (Ht : title (labelOptions env g ed) = getTitle ed LONG).
  { unfold labelOptions, labelContent; simpl.
    destruct (getTitle ed LONG); try discriminate;
      destruct (orEmpty (description_rule env g ed)) eqn:E; try reflexivity;
      pose proof (orEmpty_is_string (description_rule env g ed)) as Hs;
      rewrite E in Hs; discriminate. }
  split; [exact Ht | now rewrite Ht].
Qed.

Lemma doRefresh_title_not_defaulted_witness :
  exists this' lbl opts,
    doRefresh (Fixture.workbench [Scenario.three] true "default" Completed)
      (Scenario.painted Scenario.three) = Return tt this' [] /\
    editorLabel this' = LabelSet lbl opts /\
    title opts = Js.Null /\
    Js.is_string (title opts) = false.
Proof.
  apply (doRefresh_title_not_defaulted
           (Fixture.workbench [Scenario.three] true "default" Completed)
           (Scenario.painted Scenario.three) Scenario.three Scenario.scratch);
    reflexivity.
Defined.

(** X5. The label never gets a title that repeats its description: after
    a refresh with an active editor, a title equal to the description
    handed over with it is the empty string. *)
Theorem doRefresh_title_never_repeats (env : Collaborators) (this : TitleControl)
    (g : IEditorGroup) (ed : EditorInput) :
  context this = Some g ->
  activeEditor g = Some ed ->
  exists this' lbl opts,
    doRefresh env this = Return tt this' [] /\
    editorLabel this' = LabelSet lbl opts /\
    (title opts = description lbl -> title opts = Js.Str "").
Proof.
  intros Hctx Hed.
  exists (refreshed env g ed this), (labelContent env g ed), (labelOptions env g ed).
  split; [now apply doRefresh_active | ]. split; [reflexivity | ].
  unfold labelOptions; simpl.
  destruct (Js.strict_eq _ (getTitle ed LONG)) eqn:E; [reflexivity | ].
  intros Heq. symmetry in Heq. apply strict_eq_spec in Heq.
  unfold labelContent in Heq; simpl in Heq. congruence.
Qed.

Lemma doRefresh_title_never_repeats_witness :
  exists this' lbl opts,
    doRefresh (Fixture.workbench [Scenario.four] true "long" Completed)
      (Scenario.painted Scenario.four) = Return tt this' [] /\
    editorLabel this' = LabelSet lbl opts /\
    (title opts = description lbl -> title opts = Js.Str "").
Proof.
  apply (doRefresh_title_never_repeats
           (Fixture.workbench [Scenario.four] true "long" Completed)
           (Scenario.painted Scenario.four) Scenario.four Scenario.folder);
    reflexivity.
Defined.

(** X6. A refresh repaints the label and the toolbar from scratch: two
    controls bound to the same context end with the same label and the
    same toolbar actions, whatever they showed before. *)
Theorem doRefresh_overwrites (env : Collaborators) (this1 this2 : TitleControl) :
  context this1 = context this2 ->
  exists r1 r2,
    doRefresh env this1 = Return tt r1 [] /\
    doRefresh env this2 = Return tt r2 [] /\
    editorLabel r1 = editorLabel r2 /\
    editorActionsToolbar r1 = editorActionsToolbar r2.
Proof.
  intros Hctx. do 2 eexists.
  split; [apply doRefresh_outcome | ]. split; [apply doRefresh_outcome | ].
  rewrite <- Hctx.
  destruct (context this1) as [g | ]; [destruct (activeEditor g) | ];
    split; reflexivity.
Qed.

Lemma doRefresh_overwrites_witness :
  exists r1 r2,
    doRefresh (Fixture.workbench [Fixture.one] true "long" Completed)
      (Scenario.painted Fixture.one) = Return tt r1 [] /\
    doRefresh (Fixture.workbench [Fixture.one] true "long" Completed)
      (Fixture.control (Some Fixture.one)) = Return tt r2 [] /\
    editorLabel r1 = editorLabel r2 /\
    editorActionsToolbar r1 = editorActionsToolbar r2.
Proof.
  apply (doRefresh_overwrites
           (Fixture.workbench [Fixture.one] true "long" Completed)
           (Scenario.painted Fixture.one) (Fixture.control (Some Fixture.one))).
  reflexivity.
Defined.

(** X7. Closing the last editor does not take the markers off: after a
    refresh for a dirty editor, a rebinding to a group with no active
    editor and another refresh, the label and the toolbar are cleared but
    the title container still has the class "dirty" and the label still
    has the color of the first refresh. *)
Theorem refresh_after_close_keeps_markers (env1 env2 : Collaborators)
    (this : TitleControl) (g g' : IEditorGroup) (ed : EditorInput) :
  context this = Some g ->
  activeEditor g = Some ed ->
  isDirty ed = true ->
  activeEditor g' = None ->
  exists this',
    (doRefresh env1 ;; setContext (Some g') ;; doRefresh env2) this = Return tt this' [] /\
    editorLabel this' = LabelCleared /\
    editorActionsToolbar this' = [] /\
    DOM.hasClass (titleContainer this') "dirty" = true /\
    editorLabelColor this' =
      getColor env1 (if isActive (stacks env1) g then TAB_ACTIVE_FOREGROUND
                     else TAB_UNFOCUSED_ACTIVE_FOREGROUND).
Proof.
  intros Hctx Hed Hdirty Hnone.
  unfold bind at 1. rewrite (doRefresh_active env1 this g ed Hctx Hed).
  cbv beta iota. unfold setContext, modify, bind. cbv beta iota.
  rewrite doRefresh_inactive by (simpl; exact Hnone).
  eexists. split; [reflexivity | ].
  simpl. repeat split.
  rewrite <- Hdirty. apply hasClass_toggleClass_same.
Qed.

Lemma refresh_after_close_keeps_markers_witness :
  exists this',
    (doRefresh (Fixture.workbench [Fixture.one] true "default" Completed) ;;
     setContext (Some Fixture.empty) ;;
     doRefresh (Fixture.workbench [Fixture.empty] true "default" Completed))
      (Fixture.control (Some Fixture.one)) = Return tt this' [] /\
    editorLabel this' = LabelCleared /\
    editorActionsToolbar this' = [] /\
    DOM.hasClass (titleContainer this') "dirty" = true /\
    editorLabelColor this' = "#ffffff".
Proof.
  apply (refresh_after_close_keeps_markers
           (Fixture.workbench [Fixture.one] true "default" Completed)
           (Fixture.workbench [Fixture.empty] true "default" Completed)
           (Fixture.control (Some Fixture.one)) Fixture.one Fixture.empty Fixture.file);
    reflexivity.
Defined.

(** ** The listeners *)

Ltac listener_cases :=
  cbv [dispatch onTitleClick onTitleDoubleClick onTitleLabelClick
       contextMenuListener onContextMenu property_of done call setTimeout
       bind ret get emit modify throw];
  repeat match goal with
  | |- context [match context ?t with _ => _ end] => destruct (context t) eqn:?
  | |- context [if isMiddleMouseClick ?e then _ else _] =>
      destruct (isMiddleMouseClick e) eqn:?
  | |- context [match closeEditorAction_run ?env ?i with _ => _ end] =>
      destruct (closeEditorAction_run env i) eqn:?
  | |- context [if negb (dragged ?t) then _ else _] => destruct (dragged t) eqn:?
  | |- context [if ?c then _ else _] => destruct c eqn:?
  end;
  simpl.

(** X8. No listener repaints or rebinds: whatever the event and the state,
    and whether the listener returns or throws, the title's classes, the
    label, its color and the toolbar's actions are as before, and so are
    the context, the toolbar's binding context and the drag flag. *)
Theorem dispatch_frame (env : Collaborators) (ev : TitleEvent) (this : TitleControl) :
  presentation (final (dispatch env ev this)) = presentation this /\
  context (final (dispatch env ev this)) = context this /\
  editorActionsToolbarContext (final (dispatch env ev this)) =
    editorActionsToolbarContext this /\
  dragged (final (dispatch env ev this)) = dragged this.
Proof.
  destruct ev; listener_cases; repeat split; assumption.
Qed.

(** X9. The only listeners that can throw are the two context-menu ones,
    and they do exactly when no context is bound: for every event and
    state, the listener throws iff the event is a context-menu event and
    the context is unset. *)
Theorem dispatch_throws_iff (env : Collaborators) (ev : TitleEvent)
    (this : TitleControl) :
  throws (dispatch env ev this) = true <->
  isContextMenuEvent ev = true /\ context this = None.
Proof.
  destruct ev; listener_cases; unfold throws;
    split; try (intros [H1 H2]); try intros H; try split;
    try reflexivity; try discriminate; try congruence.
Qed.

(** ** Taps and clicks *)

(** X10. A touch tap with a bound context focuses the group exactly when
    its initial target is outside the toolbar, however many groups there
    are and whatever the event's [target] and [srcElement]; it asks for
    nothing else and leaves the control as it is. *)
Theorem tap_focus (env : Collaborators) (t : GestureEvent) (this : TitleControl)
    (g : IEditorGroup) (x : HTMLElement) :
  context this = Some g ->
  initialTarget t = Some x ->
  onTitleClick env (OfGesture t) this =
    Return tt this
      (if isAncestor env (Some x) (toolbarElement env) then [] else [FocusGroup g]).
Proof.
  intros Hctx Hx.
  rewrite (onTitleClick_not_middle env (OfGesture t) this g Hctx eq_refl).
  unfold originalTarget, instanceofMouseEvent. rewrite Hx. simpl.
  rewrite orb_true_r. simpl.
  destruct (isAncestor env (Some x) (toolbarElement env)); reflexivity.
Qed.

Lemma tap_focus_witness :
  onTitleClick (Fixture.workbench [Fixture.one; Fixture.two; Fixture.empty] false "long" Pending)
    (OfGesture {| initialTarget := Some 4; gestureTarget := Some 1;
                  gestureSrcElement := Some 1 |})
    (Scenario.painted Fixture.one) =
  Return tt (Scenario.painted Fixture.one) [].
Proof.
  apply (tap_focus
           (Fixture.workbench [Fixture.one; Fixture.two; Fixture.empty] false "long" Pending)
           {| initialTarget := Some 4; gestureTarget := Some 1; gestureSrcElement := Some 1 |}
           (Scenario.painted Fixture.one) Fixture.one 4);
    reflexivity.
Defined.

(** X11. What never focuses: a mouse click, of any button, when the
    number of groups is not one, and any click or tap whose original
    target is below the toolbar's element; this in every state of the
    control, bound or not. *)
Theorem onTitleClick_never_focuses (env : Collaborators) (e : ClickEvent)
    (this : TitleControl) :
  (instanceofMouseEvent e = true /\ length (groups (stacks env)) <> 1) \/
  isAncestor env (originalTarget e) (toolbarElement env) = true ->
  filter isFocusRequest (effects (onTitleClick env e this)) = [].
Proof.
  intros H.
  unfold onTitleClick, bind, get.
  destruct (context this) as [g | ]; [ | reflexivity].
  destruct (isMiddleMouseClick e).
  - unfold done, call, emit, modify, ret.
    destruct (closeEditorAction_run env _); reflexivity.
  - destruct H as [[Hm Hn] | Ha].
    + rewrite Hm. apply Nat.eqb_neq in Hn. rewrite Hn. reflexivity.
    + rewrite Ha. rewrite andb_false_r. reflexivity.
Qed.

Lemma onTitleClick_never_focuses_witness :
  filter isFocusRequest
    (effects (onTitleClick (Fixture.workbench [] true "default" Completed)
                (OfMouse (Fixture.click 0 1)) (Scenario.painted Fixture.one))) = [] /\
  filter isFocusRequest
    (effects (onTitleClick (Fixture.workbench [Fixture.one] true "default" Completed)
                (OfGesture (Fixture.tap 4)) (Scenario.painted Fixture.one))) = [].
Proof.
  split.
  - apply (onTitleClick_never_focuses (Fixture.workbench [] true "default" Completed)
             (OfMouse (Fixture.click 0 1)) (Scenario.painted Fixture.one)).
    left. split; [reflexivity | discriminate].
  - apply (onTitleClick_never_focuses
             (Fixture.workbench [Fixture.one] true "default" Completed)
             (OfGesture (Fixture.tap 4)) (Scenario.painted Fixture.one)).
    right. reflexivity.
Defined.

(** ** The label click and the quick open *)

(** X12. One physical click on the label, outside a drag: the label's
    listener only stops the event and does not show the quick open itself;
    the title's click listener runs next, and the quick open is shown
    when the timer fires, after any focus request of that click.  The
    control ends as it began. *)
Theorem label_click_then_quick_open (env : Collaborators) (m : MouseEvent)
    (this : TitleControl) (g : IEditorGroup) :
  context this = Some g ->
  dragged this = false ->
  timers this = [] ->
  button m <> 1%Z ->
  ~ issues (dispatch env (LabelClick m) this) QuickOpenShow /\
  (dispatch env (LabelClick m) ;; dispatch env (CLICK m) ;; fireTimer) this =
    Return tt this
      ([EventHelper_stop false] ++
       effects (onTitleClick env (OfMouse m) this) ++
       [QuickOpenShow]).
Proof.
  intros Hctx Hdrag Htimers Hbutton.
  assert (Hmid : isMiddleMouseClick (OfMouse m) = false).
  { simpl. now apply Z.eqb_neq. }
  split.
  - unfold dispatch, onTitleLabelClick, issues, bind, get, emit, setTimeout, modify.
    rewrite Hdrag. simpl. intros [H | []]. discriminate H.
  - pose (s1 := set_timers (timers this ++ [quickOpenService_show]) this).
    assert (H1 : dispatch env (LabelClick m) this = Return tt s1 [EventHelper_stop false]).
    { unfold dispatch, onTitleLabelClick, bind, get, emit, setTimeout, modify.
      rewrite Hdrag. reflexivity. }
    assert (H2 : dispatch env (CLICK m) s1 =
                 Return tt s1 (effects (onTitleClick env (OfMouse m) this))).
    { unfold dispatch.
      rewrite (onTitleClick_not_middle env (OfMouse m) s1 g Hctx Hmid).
      rewrite (onTitleClick_not_middle env (OfMouse m) this g Hctx Hmid).
      reflexivity. }
    assert (H3 : fireTimer s1 = Return tt this [QuickOpenShow]).
    { unfold fireTimer, bind, get, modify, call, emit, s1.
      destruct this as [ctx dr classes lbl color tctx actions promises tms].
      simpl in *. subst tms. reflexivity. }
    unfold bind. rewrite H1, H2, H3. reflexivity.
Qed.

Lemma label_click_then_quick_open_witness :
  let env := Fixture.workbench [Fixture.one] true "default" Completed in
  let this := Scenario.painted Fixture.one in
  ~ issues (dispatch env (LabelClick (Fixture.click 0 1)) this) QuickOpenShow /\
  (dispatch env (LabelClick (Fixture.click 0 1)) ;;
   dispatch env (CLICK (Fixture.click 0 1)) ;; fireTimer) this =
    Return tt this [EventHelper_stop false; FocusGroup Fixture.one; QuickOpenShow].
Proof.
  apply (label_click_then_quick_open
           (Fixture.workbench [Fixture.one] true "default" Completed)
           (Fixture.click 0 1) (Scenario.painted Fixture.one) Fixture.one);
    try reflexivity.
  discriminate.
Defined.

(** X13. During a drag a click on the label shows no quick open, then or
    later: the listener stops the event and schedules nothing. *)
Theorem label_click_while_dragged (m : MouseEvent) (this : TitleControl) :
  dragged this = true ->
  onTitleLabelClick m this = Return tt this [EventHelper_stop false].
Proof.
  intros Hdrag.
  unfold onTitleLabelClick, bind, get, emit, ret. rewrite Hdrag. reflexivity.
Qed.

Lemma label_click_while_dragged_witness :
  onTitleLabelClick (Fixture.click 0 1) (Scenario.dragging Fixture.one) =
  Return tt (Scenario.dragging Fixture.one) [EventHelper_stop false].
Proof.
  apply (label_click_while_dragged (Fixture.click 0 1)). reflexivity.
Defined.

(** ** The context menu *)

(** X14. With a context bound, both context-menu listeners open the menu
    for the group and its active editor and do nothing else, whatever the
    number of groups: no focus, no change of the control. *)
Theorem context_menu_bound (env : Collaborators) (this : TitleControl)
    (g : IEditorGroup) :
  context this = Some g ->
  dispatch env CONTEXT_MENU this = Return tt this [ContextMenu g (activeEditor g)] /\
  dispatch env TouchContextmenu this = Return tt this [ContextMenu g (activeEditor g)].
Proof.
  intros Hctx. run. rewrite Hctx. split; reflexivity.
Qed.

Lemma context_menu_bound_witness :
  dispatch (Fixture.workbench [Fixture.one; Fixture.two] false "default" Completed)
    CONTEXT_MENU (Scenario.painted Fixture.two) =
    Return tt (Scenario.painted Fixture.two) [ContextMenu Fixture.two (Some Fixture.untitled)] /\
  dispatch (Fixture.workbench [Fixture.one; Fixture.two] false "default" Completed)
    TouchContextmenu (Scenario.painted Fixture.two) =
    Return tt (Scenario.painted Fixture.two) [ContextMenu Fixture.two (Some Fixture.untitled)].
Proof.
  apply (context_menu_bound
           (Fixture.workbench [Fixture.one; Fixture.two] false "default" Completed)
           (Scenario.painted Fixture.two) Fixture.two).
  reflexivity.
Defined.

(** ** Runs *)

(** A listener, a settled promise and a timer touch nothing of the control
    but its pending promises and timers. *)
Lemma bookkeeping_only (env : Collaborators) (s : Step) (this : TitleControl) :
  isRefresh s = false ->
  (forall g, s <> Rebind g) ->
  final (step env s this) =
    set_timers (timers (final (step env s this)))
      (set_pendingPromises (pendingPromises (final (step env s this))) this).
Proof.
  intros Hr Hb. destruct s as [ev | | g | n result | ].
  - simpl step. destruct ev; listener_cases;
      destruct this as [ctx dr classes lbl color tctx actions promises tms];
      reflexivity.
  - discriminate Hr.
  - now destruct (Hb g).
  - simpl step. unfold settle, bind, get, modify, call, emit, ret.
    destruct (nth_error (pendingPromises this) n) as [cb | ];
      [destruct result; [destruct cb | ] | ];
      destruct this as [ctx dr classes lbl color tctx actions promises tms];
      reflexivity.
  - simpl step. unfold fireTimer, bind, get, modify, call, emit, ret.
    destruct (timers this) as [ | cb rest] eqn:Ht; [ | destruct cb];
      destruct this as [ctx dr classes lbl color tctx actions promises tms];
      simpl in *; subst; reflexivity.
Qed.

(** The context after one turn. *)
Lemma step_context (env : Collaborators) (s : Step) (this : TitleControl) :
  context (final (step env s this)) =
    match s with
    | Rebind g => g
    | _ => context this
    end.
Proof.
  destruct s as [ev | | g | n result | ]; try reflexivity;
    try (rewrite bookkeeping_only by (reflexivity || discriminate); reflexivity).
  simpl step. rewrite doRefresh_outcome.
  destruct (context this) as [g | ] eqn:Hctx; [destruct (activeEditor g) | ];
    simpl; now rewrite ?Hctx.
Qed.

Lemma step_inSync (env : Collaborators) (s : Step) (this : TitleControl) :
  inSync this -> inSync (final (step env s this)).
Proof.
  unfold inSync. intros H.
  destruct s as [ev | | g | n result | ]; try reflexivity;
    try (rewrite bookkeeping_only by (reflexivity || discriminate); exact H).
  simpl step. rewrite doRefresh_outcome.
  destruct (context this) as [g | ] eqn:Hctx; [destruct (activeEditor g) | ];
    simpl; rewrite ?Hctx; exact H.
Qed.

Lemma step_presentation (env : Collaborators) (s : Step) (this : TitleControl) :
  isRefresh s = false ->
  presentation (final (step env s this)) = presentation this.
Proof.
  intros Hr. destruct s as [ev | | g | n result | ]; try discriminate Hr;
    try reflexivity;
    rewrite bookkeeping_only by (reflexivity || discriminate); reflexivity.
Qed.

Lemma run_cons (env : Collaborators) (s : Step)
    (rest : list (Collaborators * Step)) (this : TitleControl) :
  run ((env, s) :: rest) this =
    (fst (run rest (final (step env s this))),
     (effects (step env s this) ++ snd (run rest (final (step env s this))))%list).
Proof.
  simpl. destruct (run rest (final (step env s this))). reflexivity.
Qed.

(** X15. Only [setContext] writes the context: after any run of listeners,
    refreshes, rebindings, settled promises and timers, the context is the
    group of the last rebinding, or the initial one if there was none. *)
Theorem run_context (turns : list (Collaborators * Step)) (this : TitleControl) :
  context (fst (run turns this)) = lastRebind turns (context this).
Proof.
  revert this. induction turns as [ | [env s] rest IH]; intros this.
  - reflexivity.
  - rewrite run_cons. cbn [fst]. rewrite IH, step_context.
    destruct s; reflexivity.
Qed.

(** X16. The toolbar's binding context follows the control's: once it
    names the control's group it does so after every run, rebindings
    included. *)
Theorem run_inSync (turns : list (Collaborators * Step)) (this : TitleControl) :
  inSync this -> inSync (fst (run turns this)).
Proof.
  revert this. induction turns as [ | [env s] rest IH]; intros this H.
  - exact H.
  - rewrite run_cons. cbn [fst]. apply IH. now apply step_inSync.
Qed.

Lemma run_inSync_witness :
  inSync
    (fst (run [(Fixture.workbench [Fixture.one] true "default" Pending,
                Input (CLICK (Fixture.click 1 1)));
               (Fixture.workbench [Fixture.one] true "default" Pending,
                Rebind (Some Fixture.two));
               (Fixture.workbench [Fixture.two] true "default" Pending, Refresh);
               (Fixture.workbench [Fixture.two] true "default" Pending,
                Settle 0 (Some (Js.Error "disk full")));
               (Fixture.workbench [Fixture.two] true "default" Pending, Rebind None);
               (Fixture.workbench [Fixture.two] true "default" Pending,
                Input CONTEXT_MENU)]
            (Scenario.painted Fixture.one))).
Proof.
  apply (run_inSync _ (Scenario.painted Fixture.one)). reflexivity.
Defined.

(** X17. Only a refresh repaints: after a run with no refresh in it, the
    title's classes, the label, its color and the toolbar's actions are
    what they were at the start, rebindings included. *)
Theorem run_without_refresh (turns : list (Collaborators * Step))
    (this : TitleControl) :
  forallb (fun t => negb (isRefresh (snd t))) turns = true ->
  presentation (fst (run turns this)) = presentation this.
Proof.
  revert this. induction turns as [ | [env s] rest IH]; intros this H.
  - reflexivity.
  - simpl in H. apply andb_true_iff in H as [Hs Hrest].
    rewrite run_cons. cbn [fst]. rewrite IH by exact Hrest.
    apply step_presentation. now apply negb_true_iff in Hs.
Qed.

Lemma run_without_refresh_witness :
  presentation
    (fst (run [(Fixture.workbench [Fixture.one] true "default" Pending,
                Input (CLICK (Fixture.click 1 1)));
               (Fixture.workbench [Fixture.one] true "default" Pending,
                Rebind (Some Fixture.two));
               (Fixture.workbench [Fixture.two] true "default" Pending,
                Input (LabelClick (Fixture.click 0 1)));
               (Fixture.workbench [Fixture.two] true "default" Pending, Timer)]
            (Scenario.painted Fixture.one))) =
  presentation (Scenario.painted Fixture.one).
Proof.
  apply (run_without_refresh _ (Scenario.painted Fixture.one)). reflexivity.
Defined.

Lemma Forall_remove_nth {A : Type} (P : A -> Prop) (n : nat) (l : list A) :
  Forall P l -> Forall P (remove_nth n l).
Proof.
  unfold remove_nth. revert l.
  induction n as [ | n IH]; intros [ | x l] H; simpl; try constructor.
  - now inversion H.
  - now inversion H.
  - apply IH. now inversion H.
Qed.

(** One turn that is not a click on the label, in a control with no timer
    and only error reporters waiting on promises: the quick open is not
    shown, and the control stays such. *)
Lemma step_no_quick_open (env : Collaborators) (s : Step) (this : TitleControl) :
  timers this = [] ->
  Forall (fun cb => cb = errors_onUnexpectedError) (pendingPromises this) ->
  isLabelClickStep s = false ->
  ~ In QuickOpenShow (effects (step env s this)) /\
  timers (final (step env s this)) = [] /\
  Forall (fun cb => cb = errors_onUnexpectedError)
    (pendingPromises (final (step env s this))).
Proof.
  intros Ht Hp Hs. destruct s as [ev | | g | n result | ].
  - simpl step. destruct ev; try discriminate Hs; listener_cases;
      (split; [intros Hin; simpl in Hin; intuition discriminate | ]);
      (split; [exact Ht | ]); try exact Hp.
    all: apply Forall_app; split; [exact Hp | now constructor].
  - simpl step. rewrite doRefresh_outcome.
    destruct (context this) as [g | ]; [destruct (activeEditor g) | ];
      simpl; auto.
  - simpl. auto.
  - simpl step. unfold settle, bind, get, modify, call, emit, ret.
    destruct (nth_error (pendingPromises this) n) as [cb | ] eqn:Hn.
    + assert (Hcb : cb = errors_onUnexpectedError).
      { apply nth_error_In in Hn. rewrite Forall_forall in Hp. now apply Hp. }
      subst cb.
      destruct result; simpl;
        (split; [intros Hin; intuition discriminate | ]);
        (split; [exact Ht | now apply Forall_remove_nth]).
    + simpl. auto.
  - simpl step. unfold fireTimer, bind, get. rewrite Ht. simpl. auto.
Qed.

(** X18. The quick open is shown only after a click on the label: in a
    run with no label click, from a control with no timer and no promise
    pending, it is never shown, whatever else is clicked, tapped, settled
    or fired. *)
Theorem quick_open_only_after_label_click (turns : list (Collaborators * Step))
    (this : TitleControl) :
  timers this = [] ->
  pendingPromises this = [] ->
  forallb (fun t => negb (isLabelClickStep (snd t))) turns = true ->
  ~ In QuickOpenShow (snd (run turns this)).
Proof.
  intros Ht Hp.
  assert (Hp' : Forall (fun cb => cb = errors_onUnexpectedError) (pendingPromises this))
    by (rewrite Hp; constructor).
  clear Hp. revert this Ht Hp'.
  induction turns as [ | [env s] rest IH]; intros this Ht Hp H.
  - simpl. tauto.
  - simpl in H. apply andb_true_iff in H as [Hs Hrest].
    apply negb_true_iff in Hs.
    destruct (step_no_quick_open env s this Ht Hp Hs) as (Hout & Ht' & Hp').
    rewrite run_cons. cbn [snd]. intros Hin. apply in_app_or in Hin as [Hin | Hin].
    + now apply Hout.
    + now apply (IH _ Ht' Hp' Hrest).
Qed.

Lemma quick_open_only_after_label_click_witness :
  ~ In QuickOpenShow
      (snd (run [(Fixture.workbench [Fixture.one] true "default" Pending,
                  Input (CLICK (Fixture.click 1 1)));
                 (Fixture.workbench [Fixture.one] true "default" Pending, Timer);
                 (Fixture.workbench [Fixture.one] true "default" Pending,
                  Settle 0 (Some (Js.Error "disk full")));
                 (Fixture.workbench [Fixture.one] true "default" Pending,
                  Input (Tap (Fixture.tap 1)))]
              (Scenario.painted Fixture.one))).
Proof.
  apply (quick_open_only_after_label_click _ (Scenario.painted Fixture.one));
    reflexivity.
Defined.

(** One turn of an unbound control that does not bind it. *)
Lemma step_unbound (env : Collaborators) (s : Step) (this : TitleControl) :
  context this = None ->
  isBinding s = false ->
  filter isGroupRequest (effects (step env s this)) = [] /\
  context (final (step env s this)) = None.
Proof.
  intros Hctx Hs. split.
  - destruct s as [ev | | g | n result | ].
    + simpl step. destruct ev; listener_cases; try reflexivity; congruence.
    + simpl step. now rewrite doRefresh_outcome.
    + reflexivity.
    + simpl step. unfold settle, bind, get, modify, call, emit, ret.
      destruct (nth_error (pendingPromises this) n) as [cb | ];
        [destruct result; [destruct cb | ] | ]; reflexivity.
    + simpl step. unfold fireTimer, bind, get, modify, call, emit, ret.
      destruct (timers this) as [ | cb rest]; [ | destruct cb]; reflexivity.
  - rewrite step_context. destruct s as [ev | | [g | ] | n result | ];
      try exact Hctx; try reflexivity. discriminate Hs.
Qed.

(** X19. An unbound control asks nothing about a group: in a run that
    starts with no context and never binds one, no pin, focus, close or
    context-menu request is made, whatever the events, and whether or not
    a listener throws on the way. *)
Theorem unbound_run_no_group_request (turns : list (Collaborators * Step))
    (this : TitleControl) :
  context this = None ->
  forallb (fun t => negb (isBinding (snd t))) turns = true ->
  filter isGroupRequest (snd (run turns this)) = [].
Proof.
  revert this. induction turns as [ | [env s] rest IH]; intros this Hctx H.
  - reflexivity.
  - simpl in H. apply andb_true_iff in H as [Hs Hrest].
    apply negb_true_iff in Hs.
    destruct (step_unbound env s this Hctx Hs) as [Hout Hctx'].
    rewrite run_cons. cbn [snd]. rewrite filter_app, Hout.
    now apply IH.
Qed.

Lemma unbound_run_no_group_request_witness :
  filter isGroupRequest
    (snd (run [(Fixture.workbench [Fixture.one] true "default" Pending,
                Input (CLICK (Fixture.click 1 1)));
               (Fixture.workbench [Fixture.one] true "default" Pending,
                Input (DBLCLICK (Fixture.click 0 1)));
               (Fixture.workbench [Fixture.one] true "default" Pending,
                Input CONTEXT_MENU);
               (Fixture.workbench [Fixture.one] true "default" Pending,
                Input (LabelClick (Fixture.click 0 1)));
               (Fixture.workbench [Fixture.one] true "default" Pending, Timer);
               (Fixture.workbench [Fixture.one] true "default" Pending, Refresh);
               (Fixture.workbench [Fixture.one] true "default" Pending,
                Input (Tap (Fixture.tap 1)))]
            (Fixture.control None))) = [].
Proof.
  apply (unbound_run_no_group_request _ (Fixture.control None)); reflexivity.
Defined.

(** ** Label formats *)

(** X20. Which description a label format gives: "short" and "long" show
    the SHORT and the LONG description whether or not the group is active;
    every format other than "short" and "long" shows the MEDIUM one,
    except "default" in a group that is not active (a format that is not
    known is not treated as "default": it keeps the description in
    inactive groups too).  In each case [null] and [undefined] become ['']. *)
Theorem doRefresh_description_by_format (env : Collaborators) (this : TitleControl)
    (g : IEditorGroup) (ed : EditorInput) :
  context this = Some g ->
  activeEditor g = Some ed ->
  exists this' lbl opts,
    doRefresh env this = Return tt this' [] /\
    editorLabel this' = LabelSet lbl opts /\
    (labelFormat (getTabOptions env) = "short" ->
     description lbl = orEmpty (getDescription ed SHORT)) /\
    (labelFormat (getTabOptions env) = "long" ->
     description lbl = orEmpty (getDescription ed LONG)) /\
    (labelFormat (getTabOptions env) <> "short" ->
     labelFormat (getTabOptions env) <> "long" ->
     (labelFormat (getTabOptions env) = "default" -> isActive (stacks env) g = true) ->
     description lbl = orEmpty (getDescription ed MEDIUM)).
Proof.
  intros Hctx Hed.
  exists (refreshed env g ed this), (labelContent env g ed), (labelOptions env g ed).
  split; [now apply doRefresh_active | ]. split; [reflexivity | ].
  unfold labelContent, description_rule, getVerbosity; simpl.
  split; [ | split].
  - intros ->. reflexivity.
  - intros ->. reflexivity.
  - intros Hs Hl Hd.
    apply String.eqb_neq in Hs, Hl. rewrite Hs, Hl.
    destruct (String.eqb_spec (labelFormat (getTabOptions env)) "default") as [E | E].
    + rewrite (Hd E). reflexivity.
    + reflexivity.
Qed.

Lemma doRefresh_description_by_format_witness :
  exists this' lbl opts,
    doRefresh (Fixture.workbench [Fixture.one; Fixture.two] false "compact" Completed)
      (Scenario.painted Fixture.one) = Return tt this' [] /\
    editorLabel this' = LabelSet lbl opts /\
    ("compact" = "short" -> description lbl = orEmpty (Js.Str "src")) /\
    ("compact" = "long" -> description lbl = orEmpty (Js.Str "/work/app/src")) /\
    ("compact" <> "short" -> "compact" <> "long" ->
     ("compact" = "default" -> false = true) ->
     description lbl = orEmpty (Js.Str "app/src")).
Proof.
  apply (doRefresh_description_by_format
           (Fixture.workbench [Fixture.one; Fixture.two] false "compact" Completed)
           (Scenario.painted Fixture.one) Fixture.one Fixture.file);
    reflexivity.
Defined.
